(** * A serverless API-gateway router: route table, dispatch and fallbacks

    A shallow embedding of [src/router.ts] and the properties of its route
    table ([RouteTable.set], [RouteTable.find]) and of the request life
    cycle of [Router.handle].

    Conventions of the embedding:
    - a JavaScript [Map] keyed by strings is a [gmap string _]; the code
      only calls [has], [get] and [set] on it, never iterates;
    - a string is the sequence of its bytes (UTF-8 for text outside ASCII);
    - a call that may throw, and an awaited promise that may reject, yield
      a [Completion]: a callback is the function from its arguments to the
      way its call, or the promise it returned, ends (promises are taken to
      settle); the calls [handle] makes are recorded in a trace;
    - the types of the source are trusted: an [Error] has a string
      [message], a request has string fields. *)

From stdpp Require Import base option list strings pretty gmap.
From Stdlib Require Import ZArith Ascii.

(** ** Data model *)

(** [type StringKeyValueDict = { [key: string]: string }] *)
Abbreviation StringKeyValueDict := (gmap string string).

(** The built-in [Error]: what the router reads of it is [message]. *)
Record Error := mkError {
  name : string;
  message : string
}.

(** Values a handler may throw or reject with. [JsError] are the values for
    which [error instanceof Error] holds. [JsNumber n] is a number that is
    an integer a double holds exactly and prints digit by digit (below
    10^21 in absolute value); no number is serialised by the router. *)
Inductive JsValue :=
| JsUndefined
| JsNull
| JsBoolean (b : bool)
| JsNumber (n : Z)
| JsString (s : string)
| JsFunction
| JsError (e : Error).

Definition instanceof_Error (v : JsValue) : bool :=
  match v with
  | JsError _ => true
  | _ => false
  end.

Record HttpEventRequest := mkRequest {
  path : string;
  method : string;
  headers : StringKeyValueDict;
  pathParameters : StringKeyValueDict;
  queryStringParameters : StringKeyValueDict;
  body : string;
  isBodyBase64 : bool;
  sourceIp : string;
  requestId : string
}.

(** Every field of a response is optional ([statusCode?: number],
    [headers?], [body?], [isBodyBase64?]); the last three are prefixed here,
    the request has fields of the same names. *)
Record HttpEventResponse := mkResponse {
  statusCode : option Z;
  responseHeaders : option StringKeyValueDict;
  responseBody : option string;
  responseIsBodyBase64 : option bool
}.

(** The result of a call, or of awaiting the promise a call returned:
    a value, or a thrown value (a rejection reason). *)
Inductive Completion (A : Type) :=
| Normal (a : A)
| Throw (error : JsValue).
Arguments Normal {A} a.
Arguments Throw {A} error.

(** [type RouteHandler = (request) => Promise<HttpEventResponse>] *)
Definition RouteHandler := HttpEventRequest -> Completion HttpEventResponse.

(** [type RouteUnhandledErrorHandler = (request, error: Error) => Promise<...>] *)
Definition RouteUnhandledErrorHandler :=
  HttpEventRequest -> Error -> Completion HttpEventResponse.

Inductive HttpMethod := ANY | OPTIONS | GET | HEAD | PUT | POST | DELETE | PATCH.

(** The string a [HttpMethod] literal is at run time. *)
Definition HttpMethod_string (m : HttpMethod) : string :=
  match m with
  | ANY => "ANY"
  | OPTIONS => "OPTIONS"
  | GET => "GET"
  | HEAD => "HEAD"
  | PUT => "PUT"
  | POST => "POST"
  | DELETE => "DELETE"
  | PATCH => "PATCH"
  end.

Definition HttpMethodAny : string := "ANY".

Global Instance HttpMethod_eq_dec : EqDecision HttpMethod.
Proof. solve_decision. Defined.

(** ** The operations of [Map] the code uses *)

Definition Map_has {V} (m : gmap string V) (key : string) : bool :=
  match m !! key with
  | Some _ => true
  | None => false
  end.

Definition Map_get {V} (m : gmap string V) (key : string) : option V := m !! key.

Definition Map_set {V} (m : gmap string V) (key : string) (value : V) : gmap string V :=
  <[key := value]> m.

(** ** class RouteTable *)

Module RouteTable.

Record t := mk {
  routes : gmap string (gmap string RouteHandler)
}.

(** [constructor()] *)
Definition new : t := {| routes := ∅ |}.

(** [set(path, method, handler)]: the method map of the path is created
    when missing, then updated in place; the outer map holds that very
    object, so the update is seen through [routes]. The [None] branch
    stands for the non-null assertion [pathMap.get(path)!]. *)
Definition set (path : string) (method : HttpMethod) (handler : RouteHandler)
    (this : t) : t :=
  let pathMap := routes this in
  let hasMethodMap := Map_has pathMap path in
  let pathMap :=
    if negb hasMethodMap then Map_set pathMap path ∅ else pathMap in
  match Map_get pathMap path with
  | Some methodMap =>
      {| routes :=
           <[path := Map_set methodMap (HttpMethod_string method) handler]> pathMap |}
  | None => {| routes := pathMap |}
  end.

(** [find(path, method): RouteHandler | null] *)
Definition find (this : t) (path method : string) : option RouteHandler :=
  let pathMap := routes this in
  let hasMethodMap := Map_has pathMap path in
  if negb hasMethodMap then None
  else
    match Map_get pathMap path with
    | Some methodMap =>
        if Map_has methodMap HttpMethodAny then Map_get methodMap HttpMethodAny
        else if negb (Map_has methodMap method) then None
        else Map_get methodMap method
    | None => None
    end.

(** The method map stored for a path, and the wildcard handler in it. *)
Definition methods (this : t) (path : string) : option (gmap string RouteHandler) :=
  routes this !! path.

Definition wildcard (this : t) (path : string) : option RouteHandler :=
  methods this path ≫= (λ methodMap, methodMap !! HttpMethodAny).

(** A table as the registration calls made on it, oldest first. *)
Definition registered (calls : list (string * HttpMethod * RouteHandler)) : t :=
  foldl (λ table c, set c.1.1 c.1.2 c.2 table) new calls.

(** The handler the calls last registered for a path and a method string. *)
Definition last_registration (calls : list (string * HttpMethod * RouteHandler))
    (path method : string) : option RouteHandler :=
  foldl (λ found c,
           if decide (c.1.1 = path ∧ HttpMethod_string c.1.2 = method)
           then Some c.2 else found)
        None calls.

End RouteTable.

(** ** JSON.stringify, on the object literals the fallbacks serialise *)

Module JSON.

Definition dquote : ascii := "034"%char.
Definition backslash : ascii := "092"%char.

Definition hex_digit (n : N) : ascii :=
  match n with
  | 0 => "0" | 1 => "1" | 2 => "2" | 3 => "3" | 4 => "4" | 5 => "5"
  | 6 => "6" | 7 => "7" | 8 => "8" | 9 => "9" | 10 => "a" | 11 => "b"
  | 12 => "c" | 13 => "d" | 14 => "e" | _ => "f"
  end%N%char.

(** One character of [QuoteJSONString]: the two-character escapes, then
    [\u00XX] for the other control characters, else the character. *)
Definition quote_char (c : ascii) : string :=
  let n := N_of_ascii c in
  if (n =? 8)%N then "\b"
  else if (n =? 9)%N then "\t"
  else if (n =? 10)%N then "\n"
  else if (n =? 12)%N then "\f"
  else if (n =? 13)%N then "\r"
  else if (n =? 34)%N then String backslash (String dquote "")
  else if (n =? 92)%N then String backslash (String backslash "")
  else if (n <? 32)%N then
    "\u00" +:+ String (hex_digit (n / 16)) (String (hex_digit (n mod 16)) "")
  else String c "".

Fixpoint quote_chars (s : string) : string :=
  match s with
  | "" => ""
  | String c s' => quote_char c +:+ quote_chars s'
  end.

Definition QuoteJSONString (s : string) : string :=
  String dquote (quote_chars s +:+ String dquote "").

(** [SerializeJSONProperty]: [None] is [undefined], which makes
    [JSON.stringify] leave the property out of the enclosing object. An
    [Error] has no enumerable own property. *)
Definition SerializeJSONProperty (v : JsValue) : option string :=
  match v with
  | JsUndefined | JsFunction => None
  | JsNull => Some "null"
  | JsBoolean b => Some (if b then "true" else "false")
  | JsNumber n => Some (pretty n)
  | JsString s => Some (QuoteJSONString s)
  | JsError _ => Some "{}"
  end.

Definition member (kv : string * JsValue) : option string :=
  strP ← SerializeJSONProperty kv.2;
  Some (QuoteJSONString kv.1 +:+ ":" +:+ strP).

(** [JSON.stringify({k1: v1, ...})], the properties in source order. *)
Definition stringify (properties : list (string * JsValue)) : string :=
  match omap member properties with
  | [] => "{}"
  | partial => "{" +:+ String.concat "," partial +:+ "}"
  end.

(** The member an object gets for a property whose value is a string. *)
Definition string_member (kv : string * string) : string :=
  QuoteJSONString kv.1 +:+ ":" +:+ QuoteJSONString kv.2.

(** An object literal all of whose values are strings. *)
Definition strings (fields : list (string * string)) : list (string * JsValue) :=
  (λ kv, (kv.1, JsString kv.2)) <$> fields.

End JSON.

(** ** A reader of flat JSON objects

    Not part of the router: the decoder against which the bodies the
    fallbacks produce are read back, to say which fields a body carries. It
    accepts an object whose values are all strings, with every escape of
    the JSON grammar; a [\u] escape is accepted below U+0080. *)

Module JSONReader.
Import JSON.

Definition unhex (c : ascii) : option N :=
  let n := N_of_ascii c in
  if ((48 <=? n) && (n <=? 57))%N then Some (n - 48)%N
  else if ((97 <=? n) && (n <=? 102))%N then Some (n - 87)%N
  else if ((65 <=? n) && (n <=? 70))%N then Some (n - 55)%N
  else None.

Definition unhex4 (h1 h2 h3 h4 : ascii) : option N :=
  a ← unhex h1; b ← unhex h2; c ← unhex h3; d ← unhex h4;
  Some (((a * 16 + b) * 16 + c) * 16 + d)%N.

Definition unescape (e : ascii) : option ascii :=
  if Ascii.eqb e "b" then Some "008"%char
  else if Ascii.eqb e "t" then Some "009"%char
  else if Ascii.eqb e "n" then Some "010"%char
  else if Ascii.eqb e "f" then Some "012"%char
  else if Ascii.eqb e "r" then Some "013"%char
  else if Ascii.eqb e dquote then Some dquote
  else if Ascii.eqb e backslash then Some backslash
  else if Ascii.eqb e "/" then Some "/"%char
  else None.

Definition prepend (c : ascii) (r : option (string * string)) :
    option (string * string) :=
  '(s, rest) ← r; Some (String c s, rest).

(** The characters of a string literal up to its closing quote, decoded,
    and the input after that quote. *)
Fixpoint read_chars (s : string) : option (string * string) :=
  match s with
  | "" => None
  | String c s1 =>
      if Ascii.eqb c dquote then Some ("", s1)
      else if Ascii.eqb c backslash then
        match s1 with
        | "" => None
        | String e s2 =>
            match unescape e with
            | Some d => prepend d (read_chars s2)
            | None =>
                if Ascii.eqb e "u" then
                  match s2 with
                  | String h1 (String h2 (String h3 (String h4 s3))) =>
                      match unhex4 h1 h2 h3 h4 with
                      | Some n =>
                          if (n <? 128)%N
                          then prepend (ascii_of_N n) (read_chars s3)
                          else None
                      | None => None
                      end
                  | _ => None
                  end
                else None
            end
        end
      else if (N_of_ascii c <? 32)%N then None
      else prepend c (read_chars s1)
  end.

Definition read_string (s : string) : option (string * string) :=
  match s with
  | String c s1 => if Ascii.eqb c dquote then read_chars s1 else None
  | "" => None
  end.

(** [key:value] members separated by commas, up to the closing brace. *)
Fixpoint read_members (fuel : nat) (s : string) : option (list (string * string)) :=
  match fuel with
  | O => None
  | S fuel =>
      '(k, s1) ← read_string s;
      match s1 with
      | String ":" s2 =>
          '(v, s3) ← read_string s2;
          match s3 with
          | String "," s4 => ((k, v) ::.) <$> read_members fuel s4
          | String "}" "" => Some [(k, v)]
          | _ => None
          end
      | _ => None
      end
  end.

Definition read_object (s : string) : option (list (string * string)) :=
  match s with
  | String "{" (String "}" "") => Some []
  | String "{" s1 => read_members (String.length s1) s1
  | _ => None
  end.

End JSONReader.

(** ** The calls [handle] makes, and the monad that records them *)

(** One constructor per call expression of [handle]. *)
Inductive Call (T : Type) :=
| call_requestTransformer (event : T)
| call_routeNotFoundHandler (request : HttpEventRequest)
| call_handler (request : HttpEventRequest)
| call_routeUnhandledErrorHandlerDefault (request : HttpEventRequest) (error : Error)
| call_routeUnhandledErrorUnknownHandler (request : HttpEventRequest) (error : JsValue)
| call_responseTransformer (response : HttpEventResponse).
Arguments call_requestTransformer {T} event.
Arguments call_routeNotFoundHandler {T} request.
Arguments call_handler {T} request.
Arguments call_routeUnhandledErrorHandlerDefault {T} request error.
Arguments call_routeUnhandledErrorUnknownHandler {T} request error.
Arguments call_responseTransformer {T} response.

(** A computation: the calls made so far, oldest first, and how it ended. *)
Definition M (T : Type) (A : Type) : Type := list (Call T) * Completion A.

Global Instance M_ret {T} : MRet (M T) := λ A a, ([], Normal a).

Global Instance M_bind {T} : MBind (M T) := λ A B f m,
  match m with
  | (t, Normal a) => let '(t', c) := f a in (t ++ t', c)
  | (t, Throw error) => (t, Throw error)
  end.

(** [try { m } catch (error) { h }] *)
Definition try_catch {T A} (m : M T A) (h : JsValue → M T A) : M T A :=
  match m with
  | (t, Throw error) => let '(t', c) := h error in (t ++ t', c)
  | (t, Normal a) => (t, Normal a)
  end.

(** A call, with the completion the callee gives. *)
Definition invoke {T A} (c : Call T) (result : Completion A) : M T A := ([c], result).

Definition is_call_responseTransformer {T} (c : Call T) : bool :=
  match c with
  | call_responseTransformer _ => true
  | _ => false
  end.

Definition is_call_routeUnhandledErrorHandlerDefault {T} (c : Call T) : bool :=
  match c with
  | call_routeUnhandledErrorHandlerDefault _ _ => true
  | _ => false
  end.

Definition count_calls {T} (which : Call T → bool) (t : list (Call T)) : nat :=
  List.length (filter (λ c, which c = true) t).

(** ** class Router<T, K> *)

(** [currentTimeISOString], the function: the fallbacks name it without
    calling it. *)
Definition currentTimeISOString : JsValue := JsFunction.

Definition routeNotFoundHandlerDefault : RouteHandler := λ request,
  Normal {|
    statusCode := Some 404%Z;
    responseHeaders := Some {[ "Content-Type" := "application/json" ]};
    responseBody := Some (JSON.stringify [
      ("path", JsString (path request));
      ("method", JsString (method request));
      ("requestId", JsString (requestId request));
      ("time", currentTimeISOString);
      ("message", JsString "404 Not Found") ]);
    responseIsBodyBase64 := None
  |}.

Definition routeUnhandledErrorHandlerDefault : RouteUnhandledErrorHandler :=
  λ request error,
  Normal {|
    statusCode := Some 500%Z;
    responseHeaders := Some {[ "Content-Type" := "application/json" ]};
    responseBody := Some (JSON.stringify [
      ("path", JsString (path request));
      ("method", JsString (method request));
      ("time", currentTimeISOString);
      ("message", JsString "500 Internal Server Error");
      ("detail", JsString (message error)) ]);
    responseIsBodyBase64 := None
  |}.

Definition routeUnhandledErrorUnknownHandler
    (request : HttpEventRequest) (error : JsValue) : Completion HttpEventResponse :=
  Normal {|
    statusCode := Some 500%Z;
    responseHeaders := Some {[ "Content-Type" := "application/json" ]};
    responseBody := Some (JSON.stringify [
      ("path", JsString (path request));
      ("method", JsString (method request));
      ("time", currentTimeISOString);
      ("message", JsString "500 Internal Server Error");
      ("detail", JsString "Unknown") ]);
    responseIsBodyBase64 := None
  |}.

(** The fields the body of the response a handler ends with is read back
    as; [None] when the handler fails, or its response has no body or one
    that is not a flat JSON object. *)
Definition body_fields (c : Completion HttpEventResponse) :
    option (list (string * string)) :=
  match c with
  | Normal response => responseBody response ≫= JSONReader.read_object
  | Throw _ => None
  end.

(** The mutable and the constructor-set fields; the three [readonly]
    fallbacks above are the same closures in every instance. *)
Record Router (T K : Type) := mkRouter {
  requestTransformer : T → Completion HttpEventRequest;
  responseTransformer : HttpEventResponse → Completion K;
  routeTable : RouteTable.t;
  routeNotFoundHandler : RouteHandler;
  routeUnhandledExceptionHandler : RouteUnhandledErrorHandler
}.
Arguments mkRouter {T K}.
Arguments requestTransformer {T K}.
Arguments responseTransformer {T K}.
Arguments routeTable {T K}.
Arguments routeNotFoundHandler {T K}.
Arguments routeUnhandledExceptionHandler {T K}.

Section Router.
Context {T K : Type}.
Implicit Types (this : Router T K).

(** [constructor(requestTransformer, responseTransformer)] *)
Definition new_Router (requestTransformer : T → Completion HttpEventRequest)
    (responseTransformer : HttpEventResponse → Completion K) : Router T K :=
  {| requestTransformer := requestTransformer;
     responseTransformer := responseTransformer;
     routeTable := RouteTable.new;
     routeNotFoundHandler := routeNotFoundHandlerDefault;
     routeUnhandledExceptionHandler := routeUnhandledErrorHandlerDefault |}.

(** The [catch] clause of [handle], lines 100 to 114. *)
Definition on_failure (request : HttpEventRequest) (error : JsValue) :
    M T HttpEventResponse :=
  match error with
  | JsError e =>
      try_catch
        (invoke (call_routeUnhandledErrorHandlerDefault request e)
                (routeUnhandledErrorHandlerDefault request e))
        (λ error,
           match error with
           | JsError e' =>
               invoke (call_routeUnhandledErrorHandlerDefault request e')
                      (routeUnhandledErrorHandlerDefault request e')
           | _ =>
               invoke (call_routeUnhandledErrorUnknownHandler request error)
                      (routeUnhandledErrorUnknownHandler request error)
           end)
  | _ =>
      invoke (call_routeUnhandledErrorUnknownHandler request error)
             (routeUnhandledErrorUnknownHandler request error)
  end.

(** The [try] block of [handle] with its [catch]: the response that is
    handed to the response transformer. *)
Definition dispatch this (request : HttpEventRequest) : M T HttpEventResponse :=
  let handler :=
    RouteTable.find (routeTable this) (path request) (method request) in
  try_catch
    (match handler with
     | None =>
         invoke (call_routeNotFoundHandler request)
                (routeNotFoundHandler this request)
     | Some handler => invoke (call_handler request) (handler request)
     end)
    (on_failure request).

(** [async handle(event: T): Promise<K>] *)
Definition handle this (event : T) : M T K :=
  request ← invoke (call_requestTransformer event) (requestTransformer this event);
  response ← dispatch this request;
  invoke (call_responseTransformer response) (responseTransformer this response).

Definition setRoute (path : string) (method : HttpMethod) (handler : RouteHandler)
    this : Router T K :=
  {| requestTransformer := requestTransformer this;
     responseTransformer := responseTransformer this;
     routeTable := RouteTable.set path method handler (routeTable this);
     routeNotFoundHandler := routeNotFoundHandler this;
     routeUnhandledExceptionHandler := routeUnhandledExceptionHandler this |}.

Definition setRouteNotFoundHandler (handler : RouteHandler) this : Router T K :=
  {| requestTransformer := requestTransformer this;
     responseTransformer := responseTransformer this;
     routeTable := routeTable this;
     routeNotFoundHandler := handler;
     routeUnhandledExceptionHandler := routeUnhandledExceptionHandler this |}.

Definition setRouteUnhandledExceptionHandler (handler : RouteUnhandledErrorHandler)
    this : Router T K :=
  {| requestTransformer := requestTransformer this;
     responseTransformer := responseTransformer this;
     routeTable := routeTable this;
     routeNotFoundHandler := routeNotFoundHandler this;
     routeUnhandledExceptionHandler := handler |}.

End Router.

(** ** [handle], by what its [catch] clause calls

    The calls at lines 103 and 106 read the field
    [routeUnhandledErrorHandlerDefault] of the router. Its initialiser
    stores the built-in handler, and [handle] above is the life cycle with
    that content. Below the content of the field is a parameter
    [unhandled], to say what the [catch] clause does when the function it
    calls fails; nothing else differs from [on_failure], [dispatch] and
    [handle]. The built-in handler itself fails only on an error whose
    [message] cannot be read or serialised, which the typed [Error] above
    leaves out; as a parameter, the function may fail on any error. *)

Section handle_with.
Context {T K : Type}.
Implicit Types (this : Router T K) (unhandled : RouteUnhandledErrorHandler).




End handle_with.

(** ** The adapter of the example deployment

    The transformers the example entry point passes to [new Router(...)]:
    the gateway event is read field by field; the outbound response takes
    [statusCode || 200], [headers || {}], [body || ''] and
    [isBodyBase64 || false]. *)

Module Example.

Record RequestContext := mkContext {
  ctx_sourceIp : string;
  ctx_requestId : string
}.

Record GatewayEvent := mkEvent {
  ev_path : string;
  ev_httpMethod : string;
  ev_headers : StringKeyValueDict;
  ev_queryStringParameters : StringKeyValueDict;
  ev_body : string;
  ev_isBase64Encoded : bool;
  ev_requestContext : RequestContext
}.

Record GatewayResponse := mkGatewayResponse {
  gw_statusCode : Z;
  gw_headers : StringKeyValueDict;
  gw_body : string;
  gw_isBase64Encoded : bool
}.

(** The example sets no [pathParameters]; the router never reads them. *)
Definition request_transformer (event : GatewayEvent) : Completion HttpEventRequest :=
  let requestContext := ev_requestContext event in
  Normal {|
    path := ev_path event;
    method := ev_httpMethod event;
    headers := ev_headers event;
    pathParameters := ∅;
    queryStringParameters := ev_queryStringParameters event;
    body := ev_body event;
    isBodyBase64 := ev_isBase64Encoded event;
    sourceIp := ctx_sourceIp requestContext;
    requestId := ctx_requestId requestContext
  |}.

Definition response_transformer (response : HttpEventResponse) :
    Completion GatewayResponse :=
  Normal {|
    gw_statusCode :=
      match statusCode response with
      | Some 0%Z | None => 200%Z
      | Some n => n
      end;
    gw_headers := default ∅ (responseHeaders response);
    gw_body := default "" (responseBody response);
    gw_isBase64Encoded := default false (responseIsBodyBase64 response)
  |}.

Definition router : Router GatewayEvent GatewayResponse :=
  new_Router request_transformer response_transformer.

Definition get_root : GatewayEvent :=
  mkEvent "/" "GET" ∅ ∅ "" false (mkContext "203.0.113.7" "req-1").

Definition get_missing : GatewayEvent :=
  mkEvent "/missing" "GET" ∅ ∅ "" false (mkContext "203.0.113.7" "req-2").

Definition request_of (event : GatewayEvent) : HttpEventRequest :=
  match request_transformer event with
  | Normal request => request
  | Throw _ => mkRequest "" "" ∅ ∅ ∅ "" false "" ""
  end.

(** The request the router sees for [get_root]. *)
Definition request : HttpEventRequest := request_of get_root.

(** The status code the caller of [handle] receives; 0 on a failure. *)
Definition status_of (c : Completion GatewayResponse) : Z :=
  match c with
  | Normal out => gw_statusCode out
  | Throw _ => 0%Z
  end.

Definition boom : Error := mkError "Error" "boom".

(** A route handler that rejects with [new Error('boom')], and one that
    rejects with the string ['boom']. *)
Definition throws_error : RouteHandler := λ _, Throw (JsError boom).
Definition throws_string : RouteHandler := λ _, Throw (JsString "boom").

Definition ok_response (text : string) : HttpEventResponse :=
  {| statusCode := Some 200%Z; responseHeaders := None;
     responseBody := Some text; responseIsBodyBase64 := Some false |}.

Definition says (text : string) : RouteHandler := λ _, Normal (ok_response text).

(** A replacement for the unhandled-error handler: 503 with the message. *)
Definition unavailable_response (e : Error) : HttpEventResponse :=
  {| statusCode := Some 503%Z; responseHeaders := None;
     responseBody := Some (message e); responseIsBodyBase64 := None |}.

Definition unavailable : RouteUnhandledErrorHandler :=
  λ _ e, Normal (unavailable_response e).



Definition router_error : Router GatewayEvent GatewayResponse :=
  setRoute "/" GET throws_error router.

Definition router_string : Router GatewayEvent GatewayResponse :=
  setRoute "/" GET throws_string router.

Definition router_replaced : Router GatewayEvent GatewayResponse :=
  setRouteUnhandledExceptionHandler unavailable router_error.

(** A table with a wildcard and a method-specific handler on one path. *)
Definition table_wildcard : RouteTable.t :=
  RouteTable.set "/x" ANY (says "any") RouteTable.new.

End Example.

(** ** The example deployment

    The route the example entry point registers and the function it
    exports. The handler greets with the time of the call: [now] stands for
    what [(new Date()).toISOString()] returns at that call. *)

Module Deployment.

Definition hello (now : string) : RouteHandler := λ _,
  Normal {|
    statusCode := Some 200%Z;
    responseHeaders := None;
    responseBody := Some ("Hello " +:+ now);
    responseIsBodyBase64 := Some false
  |}.

(** [router.setRoute("/", "GET", ...)] on the router of the adapter. *)
Definition router (now : string) :
    Router Example.GatewayEvent Example.GatewayResponse :=
  setRoute "/" GET (hello now) Example.router.

(** [exports.handler = async (event) => router.handle(event)] *)
Definition handler (now : string) (event : Example.GatewayEvent) :
    M Example.GatewayEvent Example.GatewayResponse :=
  handle (router now) event.

End Deployment.

(** ** Which calls a trace holds *)

Definition is_call_handler {T} (c : Call T) : bool :=
  match c with
  | call_handler _ => true
  | _ => false
  end.

Definition is_call_routeNotFoundHandler {T} (c : Call T) : bool :=
  match c with
  | call_routeNotFoundHandler _ => true
  | _ => false
  end.

(** A call of one of the two error fallbacks. *)
Definition is_call_fallback {T} (c : Call T) : bool :=
  match c with
  | call_routeUnhandledErrorHandlerDefault _ _
  | call_routeUnhandledErrorUnknownHandler _ _ => true
  | _ => false
  end.

(** ** Routers and tables the properties are tried on *)

Module Fixtures.
Import Example.

(** A router whose request transformer rejects every event. *)
Definition router_bad_request : Router GatewayEvent GatewayResponse :=
  setRoute "/" GET (says "ok")
    (new_Router (λ _, Throw (JsString "bad event")) response_transformer).

(** A response transformer that rejects the responses with status 200 and
    passes the others to the transformer of the example. *)
Definition picky_transformer (response : HttpEventResponse) :
    Completion GatewayResponse :=
  if decide (statusCode response = Some 200%Z)
  then Throw (JsString "bad response")
  else response_transformer response.

Definition router_picky : Router GatewayEvent GatewayResponse :=
  setRoute "/" GET (says "ok") (new_Router request_transformer picky_transformer).


(** A router with a route on ["/"] that answers "ok". *)
Definition router_ok : Router GatewayEvent GatewayResponse :=
  setRoute "/" GET (says "ok") router.

(** Registrations, oldest first: a wildcard and a GET on ["/x"], a POST on
    ["/y"]. *)
Definition calls : list (string * HttpMethod * RouteHandler) :=
  [("/x", GET, says "get"); ("/x", ANY, says "any"); ("/y", POST, says "post")].

Definition get_x : GatewayEvent :=
  mkEvent "/x" "GET" ∅ ∅ "" false (mkContext "203.0.113.7" "req-3").

End Fixtures.

(** ** Properties of the route table *)

Section route_table_facts.
Import RouteTable.
Implicit Types (this : RouteTable.t) (p q k : string) (m : HttpMethod)
  (h w : RouteHandler).

(** [set] as one update of the two-level map. *)
Lemma routes_set this p m h :
  routes (set p m h this) =
    <[p := <[HttpMethod_string m := h]> (default ∅ (methods this p))]> (routes this).
Proof.
  unfold methods, set, Map_has, Map_get, Map_set.
  destruct (routes this !! p) as [methodMap|] eqn:E; simpl.
  - by rewrite E.
  - rewrite lookup_insert_eq. simpl. by rewrite insert_insert_eq.
Qed.

(** What [set] leaves under each path: the updated method map under the
    path it was called with, everything else as it was. *)
Lemma methods_set this p m h q :
  methods (set p m h this) q =
    if decide (q = p)
    then Some (<[HttpMethod_string m := h]> (default ∅ (methods this p)))
    else methods this q.
Proof.
  unfold methods at 1. rewrite routes_set.
  case_decide as E.
  - subst q. by rewrite lookup_insert_eq.
  - by rewrite lookup_insert_ne.
Qed.

(** [find] as one lookup in the two-level map. *)
Lemma find_methods this p k :
  find this p k =
    match methods this p with
    | None => None
    | Some methodMap =>
        match methodMap !! HttpMethodAny with
        | Some w => Some w
        | None => methodMap !! k
        end
    end.
Proof.
  unfold find, methods, Map_has, Map_get.
  destruct (routes this !! p) as [methodMap|]; simpl; [|done].
  destruct (methodMap !! HttpMethodAny); simpl; [done|].
  by destruct (methodMap !! k).
Qed.

Lemma table_eq this this' : routes this = routes this' → this = this'.
Proof. destruct this, this'. simpl. by intros ->. Qed.

(** The handler a list of registration calls last gave to a path and a
    method. *)
Lemma last_registration_snoc calls p' m' h' p k :
  last_registration (calls ++ [(p', m', h')]) p k =
    if decide (p' = p ∧ HttpMethod_string m' = k) then Some h'
    else last_registration calls p k.
Proof.
  unfold last_registration. rewrite foldl_snoc. simpl.
  repeat case_decide; naive_solver.
Qed.

Lemma methods_registered calls p k :
  methods (registered calls) p ≫= (λ methodMap, methodMap !! k) =
    last_registration calls p k.
Proof.
  induction calls as [|[[p' m'] h'] calls IH] using rev_ind; [done|].
  unfold registered. rewrite foldl_snoc. fold (registered calls). simpl.
  rewrite last_registration_snoc, methods_set.
  case_decide as Hp.
  - subst p'. simpl. rewrite lookup_insert.
    case_decide as Hk; [by rewrite decide_True|].
    rewrite decide_False by (intros [_ ?]; done).
    rewrite <- IH.
    destruct (methods (registered calls) p); [done|]. apply lookup_empty.
  - by rewrite decide_False by (intros [-> _]; done).
Qed.

(** C1. [find] returns absent when the table has no entry for the path;
    with an entry, it returns the handler registered under the wildcard
    method 'ANY' whatever the requested method is; without a wildcard, it
    returns what is registered under the requested method, which is absent
    when nothing is. On a table built by registration calls this is: the
    handler last registered under the wildcard for the path, if any, and
    else the one last registered for the path and the method, if any. *)
Theorem find_spec this p k :
  find this p k =
    match methods this p with
    | None => None
    | Some methodMap =>
        match methodMap !! HttpMethodAny with
        | Some w => Some w
        | None => methodMap !! k
        end
    end
  ∧ ∀ calls,
      find (registered calls) p k =
        match last_registration calls p HttpMethodAny with
        | Some w => Some w
        | None => last_registration calls p k
        end.
Proof.
  split; [apply find_methods|]. intros calls.
  rewrite find_methods, <- !methods_registered.
  by destruct (methods (registered calls) p).
Qed.

(** C8, as amended. Registering the same path and method twice leaves the
    table as the second registration alone does, with no error; [find]
    for that path and method then returns the second handler when the
    method is the wildcard or the path has no wildcard handler, and the
    wildcard handler of the path otherwise. *)
Theorem set_twice this p m h1 h2 :
  set p m h2 (set p m h1 this) = set p m h2 this ∧
  find (set p m h2 (set p m h1 this)) p (HttpMethod_string m) =
    match m, wildcard this p with
    | ANY, _ => Some h2
    | _, Some w => Some w
    | _, None => Some h2
    end.
Proof.
  assert (E : set p m h2 (set p m h1 this) = set p m h2 this).
  { apply table_eq. rewrite !routes_set, methods_set, decide_True by done.
    simpl. by rewrite !insert_insert_eq. }
  split; [done|]. rewrite E, find_methods, methods_set, decide_True by done.
  unfold wildcard.
  destruct (methods this p) as [methodMap|]; simpl.
  - destruct (decide (m = ANY)) as [->|Hm].
    + by rewrite lookup_insert_eq.
    + rewrite lookup_insert_ne by (by destruct m).
      destruct (methodMap !! HttpMethodAny); [by destruct m|].
      rewrite lookup_insert_eq. by destruct m.
  - destruct (decide (m = ANY)) as [->|Hm].
    + by rewrite lookup_insert_eq.
    + rewrite lookup_insert_ne by (by destruct m).
      rewrite lookup_empty, lookup_insert_eq. by destruct m.
Qed.

(** C10. A registration on one path leaves what [find] returns for every
    other path and every method as it was. The empty path is a key like
    any other: a registration on a non-empty path leaves it alone, a
    registration on it leaves the non-empty paths alone and is found
    under it. *)
Theorem set_find_other_path this p m h q k c s :
  q ≠ p →
  find (set p m h this) q k = find this q k ∧
  find (set (String c s) m h this) "" k = find this "" k ∧
  find (set "" m h this) (String c s) k = find this (String c s) k ∧
  is_Some (find (set "" m h this) "" (HttpMethod_string m)).
Proof.
  intros Hq. rewrite !find_methods, !methods_set.
  rewrite decide_False by done. split; [done|].
  rewrite !decide_False by done. split; [done|]. split; [done|].
  rewrite decide_True by done.
  destruct (_ !! HttpMethodAny); [done|]. by rewrite lookup_insert_eq.
Qed.

(** C8, as stated, fails: with a wildcard handler on the path, [find]
    after the two registrations returns the wildcard handler. *)
Lemma set_twice_find_counterexample :
  ¬ (∀ this p m h1 h2,
       set p m h2 (set p m h1 this) = set p m h2 this ∧
       find (set p m h2 (set p m h1 this)) p (HttpMethod_string m) = Some h2).
Proof.
  intros H.
  destruct (H Example.table_wildcard "/x" GET (Example.says "one") (Example.says "two"))
    as [_ Hfind].
  assert (E : find (set "/x" GET (Example.says "two")
                     (set "/x" GET (Example.says "one") Example.table_wildcard))
                "/x" "GET" = Some (Example.says "any")) by reflexivity.
  change (HttpMethod_string GET) with "GET" in Hfind.
  rewrite E in Hfind. injection Hfind as Hsame.
  apply (f_equal (λ handler, handler (Example.request_of Example.get_root))) in Hsame.
  discriminate Hsame.
Qed.

(** C10 on a table with a wildcard on ["/x"], registering on ["/a"]. *)
Lemma set_find_other_path_witness :
  "/b" ≠ "/a" ∧
  find (set "/a" GET (Example.says "a") Example.table_wildcard) "/b" "GET" =
    find Example.table_wildcard "/b" "GET" ∧
  find (set "/a" GET (Example.says "a") Example.table_wildcard) "" "GET" =
    find Example.table_wildcard "" "GET" ∧
  find (set "" GET (Example.says "a") Example.table_wildcard) "/a" "GET" =
    find Example.table_wildcard "/a" "GET" ∧
  is_Some (find (set "" GET (Example.says "a") Example.table_wildcard) "" "GET").
Proof.
  assert (Hne : "/b" ≠ "/a") by discriminate.
  split; [exact Hne|].
  exact (set_find_other_path Example.table_wildcard "/a" GET (Example.says "a")
           "/b" "GET" "/"%char "a" Hne).
Defined.

End route_table_facts.

(** ** Reading back what [JSON.stringify] wrote *)

Section json_facts.
Import JSON JSONReader.

Lemma app_cons c (a b : string) : String c a +:+ b = String c (a +:+ b).
Proof. reflexivity. Qed.

Lemma app_assoc_string (a b c : string) : (a +:+ b) +:+ c = a +:+ (b +:+ c).
Proof.
  induction a as [|x a IH]; [done|].
  rewrite !app_cons. by rewrite IH.
Qed.

Lemma length_app_string (a b : string) :
  String.length (a +:+ b) = String.length a + String.length b.
Proof.
  induction a as [|x a IH]; [done|].
  rewrite app_cons. simpl. by rewrite IH.
Qed.

(** Every character is read back from its escaped form. *)
Lemma read_chars_quote_char c tail :
  read_chars (quote_char c +:+ tail) = prepend c (read_chars tail).
Proof. destruct c as [[] [] [] [] [] [] [] []]; reflexivity. Qed.

Lemma read_chars_quote_chars s tail :
  read_chars (quote_chars s +:+ String dquote tail) = Some (s, tail).
Proof.
  induction s as [|c s IH]; [done|].
  cbn [quote_chars].
  by rewrite app_assoc_string, read_chars_quote_char, IH.
Qed.

Lemma read_string_quote s tail :
  read_string (QuoteJSONString s +:+ tail) = Some (s, tail).
Proof.
  change (read_chars ((quote_chars s +:+ String dquote "") +:+ tail) = Some (s, tail)).
  rewrite app_assoc_string. apply read_chars_quote_chars.
Qed.

Lemma read_members_step fuel k v tail :
  read_members (S fuel) (string_member (k, v) +:+ tail) =
    match tail with
    | String "," s4 => ((k, v) ::.) <$> read_members fuel s4
    | String "}" "" => Some [(k, v)]
    | _ => None
    end.
Proof.
  unfold string_member. cbn [read_members fst snd].
  rewrite !app_assoc_string, read_string_quote.
  cbn [mbind option_bind]. rewrite app_cons. cbn iota.
  change ("" +:+ ?x) with x.
  by rewrite read_string_quote.
Qed.

Lemma read_members_concat fuel kv (fields : list (string * string)) :
  length fields < fuel →
  read_members fuel
    (String.concat "," (string_member <$> (kv :: fields)) +:+ "}")
  = Some (kv :: fields).
Proof.
  revert kv fuel.
  induction fields as [|kv' fields IH]; intros [k v] [|fuel] Hlen;
    try (simpl in Hlen; lia).
  - change (String.concat "," (string_member <$> [(k, v)]))
      with (string_member (k, v)).
    by rewrite read_members_step.
  - change (String.concat "," (string_member <$> (k, v) :: kv' :: fields))
      with (string_member (k, v) +:+ "," +:+
            String.concat "," (string_member <$> kv' :: fields)).
    rewrite !app_assoc_string, read_members_step, app_cons.
    change ("" +:+ ?x) with x.
    rewrite IH; [done|]. simpl in Hlen. lia.
Qed.

Lemma length_string_member kv : 0 < String.length (string_member kv).
Proof. unfold string_member, QuoteJSONString. rewrite app_cons. simpl. lia. Qed.

Lemma length_concat_members (fields : list (string * string)) :
  length fields < String.length (String.concat "," (string_member <$> fields) +:+ "}").
Proof.
  induction fields as [|kv [|kv' fields] IH]; [simpl; lia| |].
  - change (String.concat "," (string_member <$> [kv])) with (string_member kv).
    rewrite length_app_string. pose proof (length_string_member kv). simpl. lia.
  - change (String.concat "," (string_member <$> kv :: kv' :: fields))
      with (string_member kv +:+ "," +:+
            String.concat "," (string_member <$> kv' :: fields)).
    rewrite !app_assoc_string, length_app_string, app_cons.
    change ("" +:+ ?x) with x.
    pose proof (length_string_member kv).
    simpl in *. lia.
Qed.

Lemma omap_member_strings (fields : list (string * string)) :
  omap member (strings fields) = string_member <$> fields.
Proof.
  unfold strings.
  induction fields as [|kv fields IH]; [done|].
  rewrite !fmap_cons. cbn [omap list_omap]. rewrite IH.
  unfold member. by cbn [snd fst SerializeJSONProperty mbind option_bind].
Qed.

(** A property whose value is a function leaves no member. *)
Lemma stringify_omits_function before key after :
  stringify (before ++ (key, JsFunction) :: after) = stringify (before ++ after).
Proof. unfold stringify. by rewrite !omap_app. Qed.

(** An object whose values are all strings is read back field by field. *)
Lemma read_object_stringify_strings (fields : list (string * string)) :
  read_object (stringify (strings fields)) = Some fields.
Proof.
  unfold stringify. rewrite omap_member_strings.
  destruct fields as [|kv fields]; [done|].
  change (string_member <$> kv :: fields)
    with (string_member kv :: (string_member <$> fields)).
  cbv beta iota.
  change (string_member kv :: (string_member <$> fields))
    with (string_member <$> kv :: fields).
  rewrite app_cons. change ("" +:+ ?x) with x.
  set (s := String.concat "," (string_member <$> kv :: fields) +:+ "}").
  assert (Hs : read_members (String.length s) s = Some (kv :: fields)).
  { apply read_members_concat.
    pose proof (length_concat_members (kv :: fields)) as H. fold s in H.
    simpl in H. lia. }
  assert (Hq : ∃ s', s = String dquote s').
  { subst s. destruct kv as [k v], fields as [|kv' fields]; eexists; reflexivity. }
  destruct Hq as [s' Hq]. rewrite Hq in Hs |- *. exact Hs.
Qed.

End json_facts.

(** ** Properties of [handle] *)

Section router_facts.
Context {T K : Type}.
Implicit Types (this : Router T K) (event : T) (request : HttpEventRequest)
  (response : HttpEventResponse) (handler : RouteHandler) (e : Error)
  (v : JsValue) (t : list (Call T)).

(** A built-in fallback ends with a response whose status code and body are
    read off its definition; the body, serialised from strings and one
    function, is read back as [fields]. *)
Ltac read_back fields :=
  eexists _, _; repeat (split; [reflexivity|]);
  apply (read_object_stringify_strings fields).

(** The fields each fallback body is read back as. *)
Lemma not_found_body request :
  ∃ response body,
    routeNotFoundHandlerDefault request = Normal response ∧
    statusCode response = Some 404%Z ∧
    responseBody response = Some body ∧
    JSONReader.read_object body =
      Some [("path", path request); ("method", method request);
            ("requestId", requestId request); ("message", "404 Not Found")].
Proof.
  read_back
    [("path", path request); ("method", method request);
     ("requestId", requestId request); ("message", "404 Not Found")].
Qed.

Lemma unhandled_error_body request e :
  ∃ response body,
    routeUnhandledErrorHandlerDefault request e = Normal response ∧
    statusCode response = Some 500%Z ∧
    responseBody response = Some body ∧
    JSONReader.read_object body =
      Some [("path", path request); ("method", method request);
            ("message", "500 Internal Server Error"); ("detail", message e)].
Proof.
  read_back
    [("path", path request); ("method", method request);
     ("message", "500 Internal Server Error"); ("detail", message e)].
Qed.

Lemma unknown_error_body request v :
  ∃ response body,
    routeUnhandledErrorUnknownHandler request v = Normal response ∧
    statusCode response = Some 500%Z ∧
    responseBody response = Some body ∧
    JSONReader.read_object body =
      Some [("path", path request); ("method", method request);
            ("message", "500 Internal Server Error"); ("detail", "Unknown")].
Proof.
  read_back
    [("path", path request); ("method", method request);
     ("message", "500 Internal Server Error"); ("detail", "Unknown")].
Qed.

(** The [catch] clause on an [Error]: one call of the built-in handler. *)
Lemma on_failure_error request e :
  on_failure (T:=T) request (JsError e) =
    ([call_routeUnhandledErrorHandlerDefault request e],
     routeUnhandledErrorHandlerDefault request e).
Proof. reflexivity. Qed.

(** The [catch] clause on any other value: the unknown-error handler. *)
Lemma on_failure_other request v :
  instanceof_Error v = false →
  on_failure (T:=T) request v =
    ([call_routeUnhandledErrorUnknownHandler request v],
     routeUnhandledErrorUnknownHandler request v).
Proof. by destruct v. Qed.

(** The [catch] clause always ends with a response, and does not call the
    response transformer. *)
Lemma on_failure_normal request v :
  ∃ t response,
    on_failure (T:=T) request v = (t, Normal response) ∧
    count_calls is_call_responseTransformer t = 0.
Proof. destruct v; by eexists _, _. Qed.

Lemma dispatch_normal this request :
  ∃ t response,
    dispatch this request = (t, Normal response) ∧
    count_calls is_call_responseTransformer t = 0.
Proof.
  unfold dispatch.
  destruct (RouteTable.find _ _ _) as [handler|].
  - destruct (handler request) as [response|v] eqn:E.
    + eexists _, _. unfold invoke, try_catch. by split.
    + destruct (on_failure_normal request v) as (t & response & Ht & Hc).
      exists (call_handler request :: t), response.
      unfold invoke, try_catch. rewrite Ht. by split.
  - destruct (routeNotFoundHandler this request) as [response|v] eqn:E.
    + eexists _, _. unfold invoke, try_catch. by split.
    + destruct (on_failure_normal request v) as (t & response & Ht & Hc).
      exists (call_routeNotFoundHandler request :: t), response.
      unfold invoke, try_catch. rewrite Ht. by split.
Qed.

Lemma count_calls_app (which : Call T → bool) t t' :
  count_calls which (t ++ t') = count_calls which t + count_calls which t'.
Proof. unfold count_calls. by rewrite filter_app, length_app. Qed.

Lemma handle_dispatch this event request t response :
  requestTransformer this event = Normal request →
  dispatch this request = (t, Normal response) →
  handle this event =
    (call_requestTransformer event :: t ++ [call_responseTransformer response],
     responseTransformer this response).
Proof.
  intros Hreq Hd. unfold handle, invoke.
  rewrite Hreq. cbn [mbind M_bind]. rewrite Hd. by cbn.
Qed.

(** C3. When the request transformer succeeds, the [try] block with its
    [catch] ends with a response whatever the route handler or the
    not-found handler did, failures included; [handle] ends as the
    response transformer does on that response, and calls it once. *)
Theorem handle_catches_handler_failures this event request :
  requestTransformer this event = Normal request →
  ∃ t response,
    dispatch this request = (t, Normal response) ∧
    handle this event =
      (call_requestTransformer event :: t ++ [call_responseTransformer response],
       responseTransformer this response) ∧
    count_calls is_call_responseTransformer (handle this event).1 = 1.
Proof.
  intros Hreq.
  destruct (dispatch_normal this request) as (t & response & Hd & Hc).
  exists t, response. split; [done|].
  rewrite (handle_dispatch _ _ _ _ _ Hreq Hd). split; [done|].
  cbn [fst].
  change (call_requestTransformer event :: t ++ [call_responseTransformer response])
    with ([call_requestTransformer event] ++ t ++ [call_responseTransformer response]).
  rewrite !count_calls_app, Hc. reflexivity.
Qed.

(** C4. When the route handler fails with an [Error], [handle] calls the
    built-in unhandled-error handler once and hands its response to the
    response transformer: status code 500, and a JSON body that carries
    the request path, the method, the status message and, as detail, the
    message of the error. *)
Theorem recognized_error_gives_500 this event request handler e :
  requestTransformer this event = Normal request →
  RouteTable.find (routeTable this) (path request) (method request) = Some handler →
  handler request = Throw (JsError e) →
  ∃ response,
    handle this event =
      ([call_requestTransformer event; call_handler request;
        call_routeUnhandledErrorHandlerDefault request e;
        call_responseTransformer response],
       responseTransformer this response) ∧
    statusCode response = Some 500%Z ∧
    body_fields (Normal response) =
      Some [("path", path request); ("method", method request);
            ("message", "500 Internal Server Error"); ("detail", message e)].
Proof.
  intros Hreq Hfind Hfail.
  destruct (unhandled_error_body request e) as (response & body & Hr & Hs & Hb & Hf).
  exists response. split; [|split; [done|]].
  - apply (handle_dispatch _ _ request
             [call_handler request;
              call_routeUnhandledErrorHandlerDefault request e]); [done|].
    unfold dispatch. rewrite Hfind. unfold invoke, try_catch. rewrite Hfail.
    by rewrite on_failure_error, Hr.
  - simpl. by rewrite Hb.
Qed.

(** C5. When the route handler fails with a value that is not an [Error],
    [handle] calls the unknown-error handler and never the unhandled-error
    handler; the response is 500 with a JSON body whose detail is
    "Unknown", and it is the same response whatever the value was. *)
Theorem unrecognized_failure_gives_unknown_500 this event request handler v :
  requestTransformer this event = Normal request →
  RouteTable.find (routeTable this) (path request) (method request) = Some handler →
  handler request = Throw v →
  instanceof_Error v = false →
  ∃ response,
    handle this event =
      ([call_requestTransformer event; call_handler request;
        call_routeUnhandledErrorUnknownHandler request v;
        call_responseTransformer response],
       responseTransformer this response) ∧
    count_calls is_call_routeUnhandledErrorHandlerDefault (handle this event).1 = 0 ∧
    statusCode response = Some 500%Z ∧
    body_fields (Normal response) =
      Some [("path", path request); ("method", method request);
            ("message", "500 Internal Server Error"); ("detail", "Unknown")] ∧
    ∀ v', routeUnhandledErrorUnknownHandler request v' = Normal response.
Proof.
  intros Hreq Hfind Hfail Hv.
  destruct (unknown_error_body request v) as (response & body & Hr & Hs & Hb & Hf).
  exists response.
  assert (Hh : handle this event =
      ([call_requestTransformer event; call_handler request;
        call_routeUnhandledErrorUnknownHandler request v;
        call_responseTransformer response],
       responseTransformer this response)).
  { apply (handle_dispatch _ _ request
             [call_handler request;
              call_routeUnhandledErrorUnknownHandler request v]); [done|].
    unfold dispatch. rewrite Hfind. unfold invoke, try_catch. rewrite Hfail.
    by rewrite on_failure_other, Hr. }
  split; [done|]. rewrite Hh. split; [done|]. split; [done|]. split.
  - simpl. by rewrite Hb.
  - intros v'. exact Hr.
Qed.

(** C7. When [find] returns absent and the not-found handler is the
    built-in one, [handle] hands the response transformer a response with
    status code 404 and a JSON body that carries the requested path, the
    method and the request identifier. *)
Theorem not_found_gives_404 this event request :
  requestTransformer this event = Normal request →
  RouteTable.find (routeTable this) (path request) (method request) = None →
  routeNotFoundHandler this = routeNotFoundHandlerDefault →
  ∃ response,
    handle this event =
      ([call_requestTransformer event; call_routeNotFoundHandler request;
        call_responseTransformer response],
       responseTransformer this response) ∧
    statusCode response = Some 404%Z ∧
    body_fields (Normal response) =
      Some [("path", path request); ("method", method request);
            ("requestId", requestId request); ("message", "404 Not Found")].
Proof.
  intros Hreq Hfind Hdefault.
  destruct (not_found_body request) as (response & body & Hr & Hs & Hb & Hf).
  exists response. split; [|split; [done|]].
  - apply (handle_dispatch _ _ request [call_routeNotFoundHandler request]);
      [done|].
    unfold dispatch. rewrite Hfind, Hdefault. unfold invoke, try_catch.
    by rewrite Hr.
  - simpl. by rewrite Hb.
Qed.

(** C9. The function [currentTimeISOString] placed under [time] is left
    out by the serialisation, so the body of each of the three built-in
    fallbacks carries no [time] field: path, method, requestId and
    message for not-found; path, method, message and detail for the two
    error handlers. *)
Theorem fallback_bodies_carry_no_time request e v :
  JSON.SerializeJSONProperty currentTimeISOString = None ∧
  (∀ before after,
     JSON.stringify (before ++ ("time", currentTimeISOString) :: after) =
       JSON.stringify (before ++ after)) ∧
  body_fields (routeNotFoundHandlerDefault request) =
    Some [("path", path request); ("method", method request);
          ("requestId", requestId request); ("message", "404 Not Found")] ∧
  body_fields (routeUnhandledErrorHandlerDefault request e) =
    Some [("path", path request); ("method", method request);
          ("message", "500 Internal Server Error"); ("detail", message e)] ∧
  body_fields (routeUnhandledErrorUnknownHandler request v) =
    Some [("path", path request); ("method", method request);
          ("message", "500 Internal Server Error"); ("detail", "Unknown")].
Proof.
  split; [reflexivity|]. split; [intros; apply stringify_omits_function|].
  destruct (not_found_body request) as (r1 & b1 & -> & _ & Hb1 & Hf1).
  destruct (unhandled_error_body request e) as (r2 & b2 & -> & _ & Hb2 & Hf2).
  destruct (unknown_error_body request v) as (r3 & b3 & -> & _ & Hb3 & Hf3).
  simpl. by rewrite Hb1, Hb2, Hb3.
Qed.

(** [handle] does not read the field [setRouteUnhandledExceptionHandler]
    writes. *)
Lemma handle_setRouteUnhandledExceptionHandler h this event :
  handle (setRouteUnhandledExceptionHandler h this) event = handle this event.
Proof. reflexivity. Qed.

End router_facts.

(** ** The example deployment *)

Section example_facts.
Import Example.

(** C3 on the example router with a route handler that throws an [Error]. *)
Lemma handle_catches_handler_failures_witness :
  requestTransformer router_error get_root = Normal request ∧
  ∃ t response,
    dispatch router_error request = (t, Normal response) ∧
    handle router_error get_root =
      (call_requestTransformer get_root :: t ++ [call_responseTransformer response],
       responseTransformer router_error response) ∧
    count_calls is_call_responseTransformer (handle router_error get_root).1 = 1.
Proof.
  split; [reflexivity|].
  apply (handle_catches_handler_failures router_error get_root request).
  reflexivity.
Defined.

(** C4 on the same router: [new Error('boom')] gives detail "boom". *)
Lemma recognized_error_gives_500_witness :
  requestTransformer router_error get_root = Normal request ∧
  RouteTable.find (routeTable router_error) (path request) (method request) =
    Some throws_error ∧
  throws_error request = Throw (JsError boom) ∧
  ∃ response,
    handle router_error get_root =
      ([call_requestTransformer get_root; call_handler request;
        call_routeUnhandledErrorHandlerDefault request boom;
        call_responseTransformer response],
       responseTransformer router_error response) ∧
    statusCode response = Some 500%Z ∧
    body_fields (Normal response) =
      Some [("path", "/"); ("method", "GET");
            ("message", "500 Internal Server Error"); ("detail", "boom")].
Proof.
  split; [reflexivity|]. split; [reflexivity|]. split; [reflexivity|].
  apply (recognized_error_gives_500 router_error get_root request throws_error boom);
    reflexivity.
Defined.

(** C5 on a router whose route handler throws the string 'boom'. *)
Lemma unrecognized_failure_gives_unknown_500_witness :
  requestTransformer router_string get_root = Normal request ∧
  RouteTable.find (routeTable router_string) (path request) (method request) =
    Some throws_string ∧
  throws_string request = Throw (JsString "boom") ∧
  instanceof_Error (JsString "boom") = false ∧
  ∃ response,
    handle router_string get_root =
      ([call_requestTransformer get_root; call_handler request;
        call_routeUnhandledErrorUnknownHandler request (JsString "boom");
        call_responseTransformer response],
       responseTransformer router_string response) ∧
    count_calls is_call_routeUnhandledErrorHandlerDefault
      (handle router_string get_root).1 = 0 ∧
    statusCode response = Some 500%Z ∧
    body_fields (Normal response) =
      Some [("path", "/"); ("method", "GET");
            ("message", "500 Internal Server Error"); ("detail", "Unknown")] ∧
    ∀ v', routeUnhandledErrorUnknownHandler request v' = Normal response.
Proof.
  split; [reflexivity|]. split; [reflexivity|]. split; [reflexivity|].
  split; [reflexivity|].
  apply (unrecognized_failure_gives_unknown_500 router_string get_root request
           throws_string (JsString "boom")); reflexivity.
Defined.

(** C7 on the example router, which has no route for ["/missing"]. *)
Lemma not_found_gives_404_witness :
  requestTransformer router get_missing = Normal (request_of get_missing) ∧
  RouteTable.find (routeTable router) "/missing" "GET" = None ∧
  routeNotFoundHandler router = routeNotFoundHandlerDefault ∧
  ∃ response,
    handle router get_missing =
      ([call_requestTransformer get_missing;
        call_routeNotFoundHandler (request_of get_missing);
        call_responseTransformer response],
       responseTransformer router response) ∧
    statusCode response = Some 404%Z ∧
    body_fields (Normal response) =
      Some [("path", "/missing"); ("method", "GET");
            ("requestId", "req-2"); ("message", "404 Not Found")].
Proof.
  split; [reflexivity|]. split; [reflexivity|]. split; [reflexivity|].
  apply (not_found_gives_404 router get_missing (request_of get_missing));
    reflexivity.
Defined.

(** The scenarios of the specification. *)
Example scenario_registered_route :
  (handle (setRoute "/" GET (says "ok") router) get_root).2 =
    Normal (mkGatewayResponse 200 ∅ "ok" false).
Proof. reflexivity. Qed.

Example scenario_missing_route :
  status_of (handle router get_missing).2 = 404%Z.
Proof. reflexivity. Qed.

Example scenario_wildcard_precedence :
  let table := RouteTable.set "/x" GET (says "get") table_wildcard in
  RouteTable.find table "/x" "POST" = Some (says "any") ∧
  RouteTable.find table "/x" "GET" = Some (says "any").
Proof. split; reflexivity. Qed.

(** C2, on the code. A router whose unhandled-error handler was replaced
    by one that answers 503, and whose route handler fails with an
    [Error]: [handle] calls the built-in handler and returns its 500
    response; the replacement is not called, and for no router does
    [handle] depend on it. *)
Theorem replaced_unhandled_handler_is_bypassed :
  routeUnhandledExceptionHandler router_replaced = unavailable ∧
  RouteTable.find (routeTable router_replaced) (path request) (method request) =
    Some throws_error ∧
  throws_error request = Throw (JsError boom) ∧
  (∃ response,
     routeUnhandledErrorHandlerDefault request boom = Normal response ∧
     handle router_replaced get_root =
       ([call_requestTransformer get_root; call_handler request;
         call_routeUnhandledErrorHandlerDefault request boom;
         call_responseTransformer response],
        response_transformer response)) ∧
  status_of (handle router_replaced get_root).2 = 500%Z ∧
  status_of (response_transformer (unavailable_response boom)) = 503%Z ∧
  ∀ (T K : Type) (h : RouteUnhandledErrorHandler) (this : Router T K) (event : T),
    handle (setRouteUnhandledExceptionHandler h this) event = handle this event.
Proof.
  split; [reflexivity|]. split; [reflexivity|]. split; [reflexivity|].
  split; [eexists; split; reflexivity|].
  split; [reflexivity|]. split; [reflexivity|].
  intros. reflexivity.
Qed.

End example_facts.

(** ** The [catch] clause and a handler that fails *)

Section catch_clause_facts.
Context {T K : Type}.
Implicit Types (this : Router T K) (event : T) (request : HttpEventRequest)
  (handler : RouteHandler) (unhandled : RouteUnhandledErrorHandler)
  (e : Error) (v : JsValue).



End catch_clause_facts.

Section catch_clause_witness.
Import Example Fixtures.


End catch_clause_witness.

(** ** More on the route table *)

Section route_table_more.
Import RouteTable.
Implicit Types (this : RouteTable.t) (p q k : string) (m : HttpMethod)
  (h w : RouteHandler).

Lemma HttpMethod_string_inj m m' :
  HttpMethod_string m = HttpMethod_string m' → m = m'.
Proof. by destruct m, m'. Qed.

Lemma HttpMethod_string_any m : HttpMethod_string m = HttpMethodAny ↔ m = ANY.
Proof. split; [by destruct m|by intros ->]. Qed.

(** X1. On a table with one registration, [find] returns that handler for
    the registered path and, when the method is not the wildcard, for the
    registered method only; it is absent for everything else. Paths and
    methods are compared as they are, case included. *)
Theorem find_single_registration p m h q k :
  find (set p m h new) q k =
    if decide (q = p ∧ (m = ANY ∨ k = HttpMethod_string m)) then Some h else None.
Proof.
  rewrite find_methods, methods_set.
  destruct (decide (q = p)) as [->|Hq].
  - change (methods new p) with (@None (gmap string RouteHandler)).
    cbn [default]. destruct (decide (m = ANY)) as [->|Hm].
    + rewrite lookup_insert_eq. by rewrite decide_True by auto.
    + rewrite lookup_insert_ne by (by rewrite HttpMethod_string_any).
      rewrite lookup_empty, lookup_insert. case_decide as Hk.
      * by rewrite decide_True by auto.
      * rewrite lookup_empty. by rewrite decide_False by (intros [_ [?|?]]; done).
  - change (methods new q) with (@None (gmap string RouteHandler)).
    by rewrite decide_False by (intros [? _]; done).
Qed.

(** X2. After a registration under the wildcard method, [find] returns
    that handler for the path whatever the method asked for and whatever
    was registered for the path before. *)
Theorem find_set_wildcard this p h k :
  find (set p ANY h this) p k = Some h.
Proof.
  rewrite find_methods, methods_set, decide_True by done.
  by rewrite lookup_insert_eq.
Qed.

(** X3. On a path that has a wildcard handler, a registration under any
    other method changes no lookup: the new handler is never found. *)
Theorem set_under_wildcard_is_shadowed this p m h w q k :
  wildcard this p = Some w →
  m ≠ ANY →
  find (set p m h this) q k = find this q k.
Proof.
  unfold wildcard. intros Hw Hm. rewrite !find_methods, methods_set.
  case_decide as Hq; [subst q|done].
  destruct (methods this p) as [methodMap|]; [|done]. simpl in *.
  rewrite lookup_insert_ne by (by rewrite HttpMethod_string_any).
  by rewrite Hw.
Qed.

(** X4. A registration under a method other than the wildcard leaves the
    lookups of every other method as they were, on its own path too. *)
Theorem set_find_other_method this p m h q k :
  m ≠ ANY →
  k ≠ HttpMethod_string m →
  find (set p m h this) q k = find this q k.
Proof.
  intros Hm Hk. rewrite !find_methods, methods_set.
  case_decide as Hq; [subst q|done].
  rewrite lookup_insert_ne by (by rewrite HttpMethod_string_any).
  rewrite lookup_insert_ne by done.
  destruct (methods this p) as [methodMap|]; [done|].
  simpl. by rewrite !lookup_empty.
Qed.

Lemma set_set_commute this p1 m1 h1 p2 m2 h2 :
  p1 ≠ p2 ∨ m1 ≠ m2 →
  set p1 m1 h1 (set p2 m2 h2 this) = set p2 m2 h2 (set p1 m1 h1 this).
Proof.
  intros Hne. apply table_eq. rewrite !routes_set, !methods_set.
  destruct (decide (p1 = p2)) as [->|Hp].
  - destruct Hne as [?|Hm]; [done|].
    rewrite !decide_True by done. rewrite !insert_insert_eq. simpl. f_equal.
    apply insert_insert_ne. intros E. by apply HttpMethod_string_inj in E.
  - rewrite decide_False by done. by apply insert_insert_ne.
Qed.

(** X5. Two registrations that differ in path or in method can be made in
    either order: every lookup gives the same result. *)
Theorem set_set_commute_find this p1 m1 h1 p2 m2 h2 q k :
  p1 ≠ p2 ∨ m1 ≠ m2 →
  find (set p1 m1 h1 (set p2 m2 h2 this)) q k =
    find (set p2 m2 h2 (set p1 m1 h1 this)) q k.
Proof. intros Hne. by rewrite set_set_commute. Qed.

Lemma last_registration_elem calls p k h :
  last_registration calls p k = Some h →
  ∃ m, (p, m, h) ∈ calls ∧ HttpMethod_string m = k.
Proof.
  induction calls as [|[[p' m'] h'] calls IH] using rev_ind; [done|].
  rewrite last_registration_snoc. case_decide as E.
  - destruct E as [-> <-]. intros [= ->]. exists m'. split; [|done].
    apply elem_of_app. right. by apply list_elem_of_singleton.
  - intros (m & Hin & Hk)%IH. exists m. split; [|done].
    apply elem_of_app. by left.
Qed.

Lemma last_registration_is_Some calls p m h :
  (p, m, h) ∈ calls → is_Some (last_registration calls p (HttpMethod_string m)).
Proof.
  induction calls as [|[[p' m'] h'] calls IH] using rev_ind.
  - by intros ?%elem_of_nil.
  - rewrite last_registration_snoc. intros [Hin|Hin%list_elem_of_singleton]%elem_of_app.
    + case_decide; [done|]. by apply IH.
    + injection Hin as -> -> ->. by rewrite decide_True.
Qed.

(** [find] on a table built by registration calls, by the last
    registrations. *)
Lemma find_last_registration calls p k :
  find (registered calls) p k =
    match last_registration calls p HttpMethodAny with
    | Some w => Some w
    | None => last_registration calls p k
    end.
Proof.
  rewrite find_methods, <- !methods_registered.
  by destruct (methods (registered calls) p).
Qed.

(** X6. What [find] returns on a table built by registration calls was
    registered by one of them for that very path, under the wildcard or
    under the method asked for: a handler of another path is never
    returned. *)
Theorem find_registered_sound calls p k h :
  find (registered calls) p k = Some h →
  ∃ m, (p, m, h) ∈ calls ∧ (m = ANY ∨ HttpMethod_string m = k).
Proof.
  rewrite find_last_registration.
  destruct (last_registration calls p HttpMethodAny) as [w|] eqn:Ew.
  - intros [= ->]. apply last_registration_elem in Ew as (m & Hin & Hm).
    exists m. split; [done|]. left. by apply HttpMethod_string_any.
  - intros (m & Hin & Hm)%last_registration_elem. exists m. auto.
Qed.

(** X7. On a table built by registration calls, [find] returns a handler
    exactly when one of the calls named the path with the wildcard method
    or with the method asked for. *)
Theorem find_registered_is_Some calls p k :
  is_Some (find (registered calls) p k) ↔
  ∃ m h, (p, m, h) ∈ calls ∧ (m = ANY ∨ HttpMethod_string m = k).
Proof.
  rewrite find_last_registration. split.
  - destruct (last_registration calls p HttpMethodAny) as [w|] eqn:Ew.
    + intros _. apply last_registration_elem in Ew as (m & Hin & Hm).
      exists m, w. split; [done|]. left. by apply HttpMethod_string_any.
    + intros [h (m & Hin & Hm)%last_registration_elem]. exists m, h. auto.
  - intros (m & h & Hin & Hm).
    pose proof (last_registration_is_Some _ _ _ _ Hin) as Hsome.
    destruct Hm as [->| <-].
    + change (HttpMethod_string ANY) with HttpMethodAny in Hsome.
      by destruct Hsome as [w ->].
    + by destruct (last_registration calls p HttpMethodAny).
Qed.

(** X3 on the table with a wildcard on ["/x"]. *)
Lemma set_under_wildcard_is_shadowed_witness :
  wildcard Example.table_wildcard "/x" = Some (Example.says "any") ∧
  GET ≠ ANY ∧
  find (set "/x" GET (Example.says "get") Example.table_wildcard) "/x" "GET" =
    find Example.table_wildcard "/x" "GET".
Proof.
  assert (Hw : wildcard Example.table_wildcard "/x" = Some (Example.says "any"))
    by reflexivity.
  assert (Hm : GET ≠ ANY) by discriminate.
  split; [exact Hw|]. split; [exact Hm|].
  exact (set_under_wildcard_is_shadowed Example.table_wildcard "/x" GET
           (Example.says "get") (Example.says "any") "/x" "GET" Hw Hm).
Defined.

(** X4: a POST registration on ["/y"] and the lookups of GET. *)
Lemma set_find_other_method_witness :
  POST ≠ ANY ∧ "GET" ≠ HttpMethod_string POST ∧
  find (set "/y" POST (Example.says "post") Example.table_wildcard) "/y" "GET" =
    find Example.table_wildcard "/y" "GET".
Proof.
  assert (Hm : POST ≠ ANY) by discriminate.
  assert (Hk : "GET" ≠ HttpMethod_string POST) by discriminate.
  split; [exact Hm|]. split; [exact Hk|].
  exact (set_find_other_method Example.table_wildcard "/y" POST
           (Example.says "post") "/y" "GET" Hm Hk).
Defined.

(** X5: GET and POST on one path, registered in both orders. *)
Lemma set_set_commute_find_witness :
  ("/x" ≠ "/x" ∨ GET ≠ POST) ∧
  find (set "/x" GET (Example.says "get") (set "/x" POST (Example.says "post") new))
       "/x" "POST" =
    find (set "/x" POST (Example.says "post") (set "/x" GET (Example.says "get") new))
         "/x" "POST".
Proof.
  assert (Hne : "/x" ≠ "/x" ∨ GET ≠ POST) by (right; discriminate).
  split; [exact Hne|].
  exact (set_set_commute_find new "/x" GET (Example.says "get") "/x" POST
           (Example.says "post") "/x" "POST" Hne).
Defined.

(** X6: on the fixture, a POST to ["/x"] finds the wildcard handler. *)
Lemma find_registered_sound_witness :
  find (registered Fixtures.calls) "/x" "POST" = Some (Example.says "any") ∧
  ∃ m, ("/x", m, Example.says "any") ∈ Fixtures.calls ∧
       (m = ANY ∨ HttpMethod_string m = "POST").
Proof.
  assert (Hf : find (registered Fixtures.calls) "/x" "POST" = Some (Example.says "any"))
    by reflexivity.
  split; [exact Hf|].
  exact (find_registered_sound Fixtures.calls "/x" "POST" (Example.says "any") Hf).
Defined.

End route_table_more.

(** ** More on [handle] *)

Section router_more.
Context {T K : Type}.
Implicit Types (this : Router T K) (event : T) (request : HttpEventRequest)
  (response : HttpEventResponse) (handler h : RouteHandler) (e : Error)
  (v : JsValue) (t : list (Call T)).

(** X8. When the route handler found for the request resolves, [handle]
    calls the request transformer, that handler and the response
    transformer, in this order and nothing else, and ends as the response
    transformer does on the handler's response. *)
Theorem handler_response_is_returned this event request handler response :
  requestTransformer this event = Normal request →
  RouteTable.find (routeTable this) (path request) (method request) = Some handler →
  handler request = Normal response →
  handle this event =
    ([call_requestTransformer event; call_handler request;
      call_responseTransformer response],
     responseTransformer this response).
Proof.
  intros Hreq Hfind Hok.
  apply (handle_dispatch _ _ request [call_handler request]); [done|].
  unfold dispatch. rewrite Hfind. unfold invoke, try_catch. by rewrite Hok.
Qed.

(** X9. A failure of the request transformer is not caught: [handle] fails
    with the same value, and calls neither a handler, nor a fallback, nor
    the response transformer. *)
Theorem request_transformer_failure_escapes this event v :
  requestTransformer this event = Throw v →
  handle this event = ([call_requestTransformer event], Throw v).
Proof. intros Hreq. unfold handle, invoke. by rewrite Hreq. Qed.

(** X10. A failure of the response transformer is not caught either: when
    the request transformer succeeds, the [try] block with its [catch]
    gives a response without calling the response transformer, and if the
    response transformer throws on that response, [handle] fails with the
    thrown value, the response transformer being its last call. *)
Theorem response_transformer_failure_escapes this event request :
  requestTransformer this event = Normal request →
  ∃ t response,
    dispatch this request = (t, Normal response) ∧
    count_calls is_call_responseTransformer t = 0 ∧
    ∀ v, responseTransformer this response = Throw v →
      handle this event =
        (call_requestTransformer event :: t ++ [call_responseTransformer response],
         Throw v).
Proof.
  intros Hreq.
  destruct (dispatch_normal this request) as (t & response & Hd & Hc).
  exists t, response. split; [done|]. split; [done|].
  intros v Hfail. by rewrite (handle_dispatch _ _ _ _ _ Hreq Hd), Hfail.
Qed.

(** X11. The handler given to [setRouteNotFoundHandler] is the one called
    for a request that no route matches, and its response is the one
    handed to the response transformer. *)
Theorem replaced_not_found_handler_is_used this event request h response :
  requestTransformer this event = Normal request →
  RouteTable.find (routeTable this) (path request) (method request) = None →
  h request = Normal response →
  handle (setRouteNotFoundHandler h this) event =
    ([call_requestTransformer event; call_routeNotFoundHandler request;
      call_responseTransformer response],
     responseTransformer this response).
Proof.
  intros Hreq Hfind Hok.
  apply (handle_dispatch (setRouteNotFoundHandler h this) _ request
           [call_routeNotFoundHandler request]); [done|].
  unfold dispatch. cbn [routeTable routeNotFoundHandler setRouteNotFoundHandler].
  rewrite Hfind. unfold invoke, try_catch. by rewrite Hok.
Qed.

(** X12. A failure of the not-found handler is caught like one of a route
    handler: an [Error] goes to the built-in unhandled-error handler, any
    other value to the unknown-error handler, and the response is 500 with
    the message of the error, or "Unknown", as detail. *)
Theorem not_found_handler_failure_is_caught this event request v :
  requestTransformer this event = Normal request →
  RouteTable.find (routeTable this) (path request) (method request) = None →
  routeNotFoundHandler this request = Throw v →
  ∃ response,
    handle this event =
      ([call_requestTransformer event; call_routeNotFoundHandler request;
        match v with
        | JsError e => call_routeUnhandledErrorHandlerDefault request e
        | _ => call_routeUnhandledErrorUnknownHandler request v
        end;
        call_responseTransformer response],
       responseTransformer this response) ∧
    statusCode response = Some 500%Z ∧
    body_fields (Normal response) =
      Some [("path", path request); ("method", method request);
            ("message", "500 Internal Server Error");
            ("detail", match v with JsError e => message e | _ => "Unknown" end)].
Proof.
  intros Hreq Hfind Hfail.
  assert (Hd : ∀ c response,
    on_failure (T:=T) request v = ([c], Normal response) →
    handle this event =
      ([call_requestTransformer event; call_routeNotFoundHandler request; c;
        call_responseTransformer response],
       responseTransformer this response)).
  { intros c response Hon.
    apply (handle_dispatch _ _ request [call_routeNotFoundHandler request; c]);
      [done|].
    unfold dispatch. rewrite Hfind. unfold invoke, try_catch.
    by rewrite Hfail, Hon. }
  destruct (instanceof_Error v) eqn:Hv.
  - destruct v as [| | | | | |e]; try discriminate Hv.
    destruct (unhandled_error_body request e) as (response & body & Hr & Hs & Hb & Hf).
    exists response. split; [|split; [done|]].
    + apply Hd. by rewrite on_failure_error, Hr.
    + simpl. by rewrite Hb.
  - destruct (unknown_error_body request v) as (response & body & Hr & Hs & Hb & Hf).
    exists response. split; [|split; [done|]].
    + replace (match v with
               | JsError e => call_routeUnhandledErrorHandlerDefault request e
               | _ => call_routeUnhandledErrorUnknownHandler request v
               end) with (call_routeUnhandledErrorUnknownHandler (T:=T) request v)
        by (by destruct v).
      apply Hd. by rewrite on_failure_other, Hr.
    + simpl. rewrite Hb. simpl. rewrite Hf. by destruct v.
Qed.

(** X13. A route registered on one path changes nothing for a request on
    another path: [handle] makes the same calls and ends the same way. *)
Theorem setRoute_other_path_handle this p m h event request :
  requestTransformer this event = Normal request →
  path request ≠ p →
  handle (setRoute p m h this) event = handle this event.
Proof.
  intros Hreq Hp. unfold handle.
  cbn [requestTransformer responseTransformer setRoute]. rewrite Hreq.
  unfold invoke. cbn [mbind M_bind].
  assert (Hd : dispatch (setRoute p m h this) request = dispatch this request).
  { unfold dispatch. cbn [routeTable routeNotFoundHandler setRoute].
    rewrite !find_methods, methods_set. by rewrite decide_False by done. }
  by rewrite Hd.
Qed.

(** X14. Replacing the not-found handler changes nothing for a request
    that a route matches. *)
Theorem setRouteNotFoundHandler_routed_request this h event request handler :
  requestTransformer this event = Normal request →
  RouteTable.find (routeTable this) (path request) (method request) = Some handler →
  handle (setRouteNotFoundHandler h this) event = handle this event.
Proof.
  intros Hreq Hfind. unfold handle.
  cbn [requestTransformer responseTransformer setRouteNotFoundHandler]. rewrite Hreq.
  unfold invoke. cbn [mbind M_bind].
  assert (Hd : dispatch (setRouteNotFoundHandler h this) request =
               dispatch this request).
  { unfold dispatch. cbn [routeTable setRouteNotFoundHandler]. by rewrite Hfind. }
  by rewrite Hd.
Qed.

(** X15. A router on which no route was registered answers every request
    with the built-in 404 response, which carries the path, the method and
    the request identifier. *)
Theorem new_router_answers_404 requestTransformer' responseTransformer' event request :
  requestTransformer' event = Normal request →
  ∃ response,
    handle (T:=T) (K:=K) (new_Router requestTransformer' responseTransformer') event =
      ([call_requestTransformer event; call_routeNotFoundHandler request;
        call_responseTransformer response],
       responseTransformer' response) ∧
    statusCode response = Some 404%Z ∧
    body_fields (Normal response) =
      Some [("path", path request); ("method", method request);
            ("requestId", requestId request); ("message", "404 Not Found")].
Proof.
  intros Hreq.
  destruct (not_found_body request) as (response & body & Hr & Hs & Hb & Hf).
  exists response. split; [|split; [done|]].
  - apply (handle_dispatch (new_Router requestTransformer' responseTransformer')
             _ request [call_routeNotFoundHandler request]); [done|].
    unfold dispatch. cbn [routeTable routeNotFoundHandler new_Router].
    rewrite find_methods. change (RouteTable.methods RouteTable.new (path request))
      with (@None (gmap string RouteHandler)).
    unfold invoke, try_catch. by rewrite Hr.
  - simpl. by rewrite Hb.
Qed.

Lemma count_calls_cons (which : Call T → bool) c t :
  count_calls which (c :: t) = (if which c then 1 else 0) + count_calls which t.
Proof.
  unfold count_calls. rewrite filter_cons.
  destruct (which c); by case_decide.
Qed.

(** X16. One request, one handler: when the request transformer succeeds,
    [handle] calls the route handler once and the not-found handler never
    if [find] returns a handler, the not-found handler once and no route
    handler if it returns none; it calls at most one error fallback, and
    none when the handler it called resolved. *)
Theorem handle_call_discipline this event request :
  requestTransformer this event = Normal request →
  let t := (handle this event).1 in
  let found := RouteTable.find (routeTable this) (path request) (method request) in
  count_calls is_call_handler t = (if found is Some _ then 1 else 0) ∧
  count_calls is_call_routeNotFoundHandler t = (if found is Some _ then 0 else 1) ∧
  count_calls is_call_fallback t ≤ 1 ∧
  (∀ response,
     default (routeNotFoundHandler this) found request = Normal response →
     count_calls is_call_fallback t = 0).
Proof.
  intros Hreq t found.
  assert (Hon : ∀ v, ∃ c response,
    on_failure (T:=T) request v = ([c], Normal response) ∧
    is_call_fallback c = true ∧ is_call_handler c = false ∧
    is_call_routeNotFoundHandler c = false).
  { intros v. destruct v; by eexists _, _. }
  assert (Hnil : ∀ which : Call T → bool, count_calls which [] = 0) by done.
  subst t found.
  destruct (RouteTable.find _ _ _) as [handler|] eqn:Hfind; cbn [default].
  - destruct (handler request) as [response|v] eqn:E.
    + rewrite (handle_dispatch this event request [call_handler request] response Hreq)
        by (unfold dispatch, invoke, try_catch; by rewrite Hfind, E).
      cbn [fst app]. rewrite !count_calls_cons, !Hnil. cbn.
      by repeat split; try lia.
    + destruct (Hon v) as (c & response & Hc & Hc1 & Hc2 & Hc3).
      rewrite (handle_dispatch this event request [call_handler request; c] response Hreq)
        by (unfold dispatch, invoke, try_catch; by rewrite Hfind, E, Hc).
      cbn [fst app]. rewrite !count_calls_cons, !Hnil, Hc1, Hc2, Hc3. cbn.
      repeat split; try lia. intros ? ?. congruence.
  - destruct (routeNotFoundHandler this request) as [response|v] eqn:E.
    + rewrite (handle_dispatch this event request [call_routeNotFoundHandler request]
                 response Hreq)
        by (unfold dispatch, invoke, try_catch; by rewrite Hfind, E).
      cbn [fst app]. rewrite !count_calls_cons, !Hnil. cbn.
      by repeat split; try lia.
    + destruct (Hon v) as (c & response & Hc & Hc1 & Hc2 & Hc3).
      rewrite (handle_dispatch this event request
                 [call_routeNotFoundHandler request; c] response Hreq)
        by (unfold dispatch, invoke, try_catch; by rewrite Hfind, E, Hc).
      cbn [fst app]. rewrite !count_calls_cons, !Hnil, Hc1, Hc2, Hc3. cbn.
      repeat split; try lia. intros ? ?. congruence.
Qed.

(** X17. A route registered with [setRoute] is the one [handle] dispatches
    to for a request with that path and that method, when the method is the
    wildcard or the path had no wildcard handler; for a wildcard route the
    request may have any method. *)
Theorem setRoute_then_handle this p m h event request response :
  requestTransformer this event = Normal request →
  path request = p →
  m = ANY ∨
    (method request = HttpMethod_string m ∧ RouteTable.wildcard (routeTable this) p = None) →
  h request = Normal response →
  handle (setRoute p m h this) event =
    ([call_requestTransformer event; call_handler request;
      call_responseTransformer response],
     responseTransformer this response).
Proof.
  intros Hreq <- Hm Hok.
  apply (handle_dispatch (setRoute (path request) m h this) _ request
           [call_handler request]); [done|].
  unfold dispatch. cbn [routeTable routeNotFoundHandler setRoute].
  assert (Hfind : RouteTable.find
            (RouteTable.set (path request) m h (routeTable this))
            (path request) (method request) = Some h).
  { rewrite find_methods, methods_set, decide_True by done.
    destruct Hm as [->|[Hk Hw]]; [by rewrite lookup_insert_eq|].
    destruct (decide (m = ANY)) as [->|Hne]; [by rewrite lookup_insert_eq|].
    rewrite lookup_insert_ne by (by rewrite HttpMethod_string_any).
    unfold RouteTable.wildcard in Hw.
    destruct (RouteTable.methods (routeTable this) (path request)); simpl in *.
    - by rewrite Hw, Hk, lookup_insert_eq.
    - by rewrite lookup_empty, Hk, lookup_insert_eq. }
  rewrite Hfind. unfold invoke, try_catch. by rewrite Hok.
Qed.

End router_more.

(** ** More on the example deployment *)

Section deployment_facts.
Import Example.

(** X18. Behind the adapter of the example, with handlers that throw or
    resolve with a response object (as [RouteHandler] says; one that
    resolves with [undefined] is left out, the response transformer would
    throw on it), [handle] never fails whatever the routes are: the caller
    receives a gateway response, and its status code is not 0 (a handler's
    0 or missing status code goes out as 200). *)
Theorem example_adapter_always_answers
    (this : Router GatewayEvent GatewayResponse) (event : GatewayEvent) :
  requestTransformer this = request_transformer →
  responseTransformer this = response_transformer →
  ∃ out, (handle this event).2 = Normal out ∧ gw_statusCode out ≠ 0%Z.
Proof.
  intros Hreq Hresp.
  destruct (dispatch_normal this (request_of event)) as (t & response & Hd & _).
  assert (Hr : requestTransformer this event = Normal (request_of event))
    by (by rewrite Hreq).
  rewrite (handle_dispatch _ _ _ _ _ Hr Hd), Hresp.
  eexists. split; [reflexivity|]. cbn.
  destruct (statusCode response) as [[| |]|]; done.
Qed.

Lemma handler_root now event :
  ev_path event = "/" →
  ev_httpMethod event = "GET" →
  handle (Deployment.router now) event =
    ([call_requestTransformer event; call_handler (request_of event);
      call_responseTransformer
        (mkResponse (Some 200%Z) None (Some ("Hello " +:+ now)) (Some false))],
     response_transformer
       (mkResponse (Some 200%Z) None (Some ("Hello " +:+ now)) (Some false))).
Proof.
  intros Hp Hm.
  apply (handle_dispatch (Deployment.router now) event (request_of event)
           [call_handler (request_of event)]); [done|].
  unfold dispatch.
  change (path (request_of event)) with (ev_path event).
  change (method (request_of event)) with (ev_httpMethod event).
  rewrite Hp, Hm. reflexivity.
Qed.

(** X19. The deployed function answers GET on ["/"] with status 200, the
    body "Hello " followed by the time of the call, no header and no
    base64 flag. *)
Theorem deployment_serves_root now event :
  ev_path event = "/" →
  ev_httpMethod event = "GET" →
  (Deployment.handler now event).2 =
    Normal (mkGatewayResponse 200 ∅ ("Hello " +:+ now) false).
Proof.
  intros Hp Hm. unfold Deployment.handler.
  rewrite (handler_root now event Hp Hm). reflexivity.
Qed.

(** X20. For every other path or method (compared exactly, so "get" and
    ["/index"] too) the deployed function answers 404 with the JSON
    content type, no base64 flag, and a body that carries the path, the
    method and the request identifier of the event. *)
Theorem deployment_answers_404_elsewhere now event :
  ev_path event ≠ "/" ∨ ev_httpMethod event ≠ "GET" →
  ∃ out,
    (Deployment.handler now event).2 = Normal out ∧
    gw_statusCode out = 404%Z ∧
    gw_headers out = {[ "Content-Type" := "application/json" ]} ∧
    gw_isBase64Encoded out = false ∧
    JSONReader.read_object (gw_body out) =
      Some [("path", ev_path event); ("method", ev_httpMethod event);
            ("requestId", ctx_requestId (ev_requestContext event));
            ("message", "404 Not Found")].
Proof.
  intros Hne. unfold Deployment.handler.
  destruct (not_found_body (request_of event)) as (response & body & Hr & Hs & Hb & Hf).
  assert (Hfind : RouteTable.find (routeTable (Deployment.router now))
                    (ev_path event) (ev_httpMethod event) = None).
  { unfold Deployment.router. cbn [routeTable setRoute Example.router new_Router].
    rewrite find_methods, methods_set. case_decide as Hp.
    - destruct Hne as [?|Hm]; [done|]. cbn [default].
      change (RouteTable.methods RouteTable.new "/")
        with (@None (gmap string RouteHandler)). cbn [default].
      rewrite lookup_insert_ne by done. rewrite lookup_empty.
      rewrite lookup_insert_ne by done. apply lookup_empty.
    - done. }
  rewrite (handle_dispatch (Deployment.router now) event (request_of event)
             [call_routeNotFoundHandler (request_of event)] response eq_refl).
  - injection Hr as <-. simpl in Hb. injection Hb as <-.
    eexists. split; [reflexivity|]. repeat split. exact Hf.
  - unfold dispatch.
    change (path (request_of event)) with (ev_path event).
    change (method (request_of event)) with (ev_httpMethod event).
    rewrite Hfind. unfold invoke, try_catch.
    change (routeNotFoundHandler (Deployment.router now))
      with routeNotFoundHandlerDefault.
    by rewrite Hr.
Qed.

End deployment_facts.

(** ** The properties above on the example routers *)

Section more_witnesses.
Import Example Fixtures.

(** X8 on the router with a route on ["/"] that answers "ok". *)
Lemma handler_response_is_returned_witness :
  handle router_ok get_root =
    ([call_requestTransformer get_root; call_handler request;
      call_responseTransformer (ok_response "ok")],
     responseTransformer router_ok (ok_response "ok")).
Proof.
  apply (handler_response_is_returned router_ok get_root request (says "ok")
           (ok_response "ok")); reflexivity.
Defined.

(** X9 on a router whose request transformer throws a string. *)
Lemma request_transformer_failure_escapes_witness :
  requestTransformer router_bad_request get_root = Throw (JsString "bad event") ∧
  handle router_bad_request get_root =
    ([call_requestTransformer get_root], Throw (JsString "bad event")).
Proof.
  split; [reflexivity|].
  apply (request_transformer_failure_escapes router_bad_request get_root).
  reflexivity.
Defined.

(** X10 on a router whose response transformer throws on status 200 only. *)
Lemma response_transformer_failure_escapes_witness :
  requestTransformer router_picky get_root = Normal request ∧
  picky_transformer (ok_response "ok") = Throw (JsString "bad response") ∧
  ∃ t response,
    dispatch router_picky request = (t, Normal response) ∧
    count_calls is_call_responseTransformer t = 0 ∧
    ∀ v, responseTransformer router_picky response = Throw v →
      handle router_picky get_root =
        (call_requestTransformer get_root :: t ++ [call_responseTransformer response],
         Throw v).
Proof.
  split; [reflexivity|]. split; [reflexivity|].
  exact (response_transformer_failure_escapes router_picky get_root request eq_refl).
Defined.

(** X11: a replacement not-found handler on the example router. *)
Lemma replaced_not_found_handler_is_used_witness :
  handle (setRouteNotFoundHandler (says "nothing here") router) get_missing =
    ([call_requestTransformer get_missing;
      call_routeNotFoundHandler (request_of get_missing);
      call_responseTransformer (ok_response "nothing here")],
     responseTransformer router (ok_response "nothing here")).
Proof.
  apply (replaced_not_found_handler_is_used router get_missing
           (request_of get_missing) (says "nothing here")
           (ok_response "nothing here")); reflexivity.
Defined.

(** X12: a replacement not-found handler that throws [new Error('boom')]. *)
Lemma not_found_handler_failure_is_caught_witness :
  routeNotFoundHandler (setRouteNotFoundHandler throws_error router)
    (request_of get_missing) = Throw (JsError boom) ∧
  ∃ response,
    handle (setRouteNotFoundHandler throws_error router) get_missing =
      ([call_requestTransformer get_missing;
        call_routeNotFoundHandler (request_of get_missing);
        call_routeUnhandledErrorHandlerDefault (request_of get_missing) boom;
        call_responseTransformer response],
       response_transformer response) ∧
    statusCode response = Some 500%Z ∧
    body_fields (Normal response) =
      Some [("path", "/missing"); ("method", "GET");
            ("message", "500 Internal Server Error"); ("detail", "boom")].
Proof.
  split; [reflexivity|].
  apply (not_found_handler_failure_is_caught
           (setRouteNotFoundHandler throws_error router) get_missing
           (request_of get_missing) (JsError boom)); reflexivity.
Defined.

(** X13: a route on ["/"] and a request for ["/missing"]. *)
Lemma setRoute_other_path_handle_witness :
  path (request_of get_missing) ≠ "/" ∧
  handle (setRoute "/" GET (says "ok") router) get_missing = handle router get_missing.
Proof.
  assert (Hp : path (request_of get_missing) ≠ "/") by discriminate.
  split; [exact Hp|].
  exact (setRoute_other_path_handle router "/" GET (says "ok") get_missing
           (request_of get_missing) eq_refl Hp).
Defined.

(** X14: a replacement not-found handler and a request that is routed. *)
Lemma setRouteNotFoundHandler_routed_request_witness :
  RouteTable.find (routeTable router_ok) (path request) (method request) =
    Some (says "ok") ∧
  handle (setRouteNotFoundHandler (says "nothing here") router_ok) get_root =
    handle router_ok get_root.
Proof.
  split; [reflexivity|].
  apply (setRouteNotFoundHandler_routed_request router_ok (says "nothing here")
           get_root request (says "ok")); reflexivity.
Defined.

(** X15: the router of the adapter before any registration. *)
Lemma new_router_answers_404_witness :
  ∃ response,
    handle (new_Router request_transformer response_transformer) get_root =
      ([call_requestTransformer get_root; call_routeNotFoundHandler request;
        call_responseTransformer response],
       response_transformer response) ∧
    statusCode response = Some 404%Z ∧
    body_fields (Normal response) =
      Some [("path", "/"); ("method", "GET");
            ("requestId", "req-1"); ("message", "404 Not Found")].
Proof.
  apply (new_router_answers_404 request_transformer response_transformer
           get_root request).
  reflexivity.
Defined.

(** X16 on the router whose route handler throws: one route handler call,
    no not-found call, one fallback call. *)
Lemma handle_call_discipline_witness :
  count_calls is_call_handler (handle router_error get_root).1 = 1 ∧
  count_calls is_call_routeNotFoundHandler (handle router_error get_root).1 = 0 ∧
  count_calls is_call_fallback (handle router_error get_root).1 ≤ 1 ∧
  (∀ response,
     throws_error request = Normal response →
     count_calls is_call_fallback (handle router_error get_root).1 = 0).
Proof.
  exact (handle_call_discipline router_error get_root request eq_refl).
Defined.

(** X17: registering GET on ["/"] of the example router, then a GET. *)
Lemma setRoute_then_handle_witness :
  (GET = ANY ∨
   (method request = HttpMethod_string GET ∧
    RouteTable.wildcard (routeTable router) "/" = None)) ∧
  handle (setRoute "/" GET (says "ok") router) get_root =
    ([call_requestTransformer get_root; call_handler request;
      call_responseTransformer (ok_response "ok")],
     responseTransformer router (ok_response "ok")).
Proof.
  assert (Hm : GET = ANY ∨
               (method request = HttpMethod_string GET ∧
                RouteTable.wildcard (routeTable router) "/" = None))
    by (right; split; reflexivity).
  split; [exact Hm|].
  exact (setRoute_then_handle router "/" GET (says "ok") get_root request
           (ok_response "ok") eq_refl eq_refl Hm eq_refl).
Defined.

(** X18 on the router whose route handler throws. *)
Lemma example_adapter_always_answers_witness :
  ∃ out, (handle router_error get_root).2 = Normal out ∧ gw_statusCode out ≠ 0%Z.
Proof.
  exact (example_adapter_always_answers router_error get_root eq_refl eq_refl).
Defined.

(** X19 at midnight of the first day of 2026. *)
Lemma deployment_serves_root_witness :
  (Deployment.handler "2026-01-01T00:00:00.000Z" get_root).2 =
    Normal (mkGatewayResponse 200 ∅ "Hello 2026-01-01T00:00:00.000Z" false).
Proof.
  exact (deployment_serves_root "2026-01-01T00:00:00.000Z" get_root eq_refl eq_refl).
Defined.

(** X20 for a GET on ["/missing"]. *)
Lemma deployment_answers_404_elsewhere_witness :
  (ev_path get_missing ≠ "/" ∨ ev_httpMethod get_missing ≠ "GET") ∧
  ∃ out,
    (Deployment.handler "2026-01-01T00:00:00.000Z" get_missing).2 = Normal out ∧
    gw_statusCode out = 404%Z ∧
    gw_headers out = {[ "Content-Type" := "application/json" ]} ∧
    gw_isBase64Encoded out = false ∧
    JSONReader.read_object (gw_body out) =
      Some [("path", "/missing"); ("method", "GET");
            ("requestId", "req-2"); ("message", "404 Not Found")].
Proof.
  assert (Hne : ev_path get_missing ≠ "/" ∨ ev_httpMethod get_missing ≠ "GET")
    by (left; discriminate).
  split; [exact Hne|].
  exact (deployment_answers_404_elsewhere "2026-01-01T00:00:00.000Z" get_missing Hne).
Defined.

End more_witnesses.
